(** * curvipy._curve: sampling curves into point sequences

    A shallow embedding of [src/curvipy/_curve.py] (classes [Curve],
    [Function], [ParametricFunction], [TransformedCurve]) together with the
    properties of [points] stated in the specification.

    Layout: Python values and arithmetic ([PyNum]), the embedded classes,
    the reference (specification-side) definitions, [Function.points] over
    a store of objects ([Store]), then the theorems. *)

From Stdlib Require Import ZArith List Bool Lia.
From Stdlib Require Import Floats.SpecFloat.
Import ListNotations.
Local Open Scope Z_scope.

(** ** Exceptions and fallible computations *)

(** The exceptions that can travel through [points]: the ones Python's own
    arithmetic raises, and whatever a user-supplied callable raises. *)
Inductive exn : Type :=
| ZeroDivisionError
| OverflowError
| ValueError
| UserError (code : Z).

Inductive result (A : Type) : Type :=
| Ok (a : A)
| Raise (e : exn).
Arguments Ok {A} a.
Arguments Raise {A} e.

Definition bind {A B : Type} (c : result A) (k : A -> result B) : result B :=
  match c with
  | Ok a => k a
  | Raise e => Raise e
  end.

Notation "x <- c ;; k" := (bind c (fun x => k))
  (at level 61, c at next level, right associativity).

(** ** Python numbers: [_TNumber = Union[int, float]] *)

Module PyNum.

(** CPython's [float] is IEEE 754 binary64. *)
Definition prec : Z := 53.
Definition emax : Z := 1024.

Definition fmul : spec_float -> spec_float -> spec_float := SFmul prec emax.
Definition fadd : spec_float -> spec_float -> spec_float := SFadd prec emax.
Definition fdiv : spec_float -> spec_float -> spec_float := SFdiv prec emax.

(** The float nearest to [m * 2^e] (ties to even); used to write literals. *)
Definition float_lit (m e : Z) : spec_float :=
  binary_normalize prec emax m e false.

(** [1.0] and [0.0] *)
Definition float_one : spec_float := S754_finite false 4503599627370496 (-52).
Definition float_zero : spec_float := S754_zero false.

Inductive _TNumber : Type :=
| Int (z : Z)
| Float (f : spec_float).

(** Implicit [int -> float] conversion of mixed arithmetic: correctly
    rounded, and [OverflowError] when the integer is out of range. *)
Definition float_of_int (z : Z) : result spec_float :=
  match float_lit z 0 with
  | S754_infinity _ => Raise OverflowError
  | f => Ok f
  end.

Definition as_float (a : _TNumber) : result spec_float :=
  match a with
  | Int z => float_of_int z
  | Float f => Ok f
  end.

(** [a * b] *)
Definition py_mul (a b : _TNumber) : result _TNumber :=
  match a, b with
  | Int x, Int y => Ok (Int (x * y))
  | _, _ =>
      x <- as_float a ;;
      y <- as_float b ;;
      Ok (Float (fmul x y))
  end.

(** [a + b] *)
Definition py_add (a b : _TNumber) : result _TNumber :=
  match a, b with
  | Int x, Int y => Ok (Int (x + y))
  | _, _ =>
      x <- as_float a ;;
      y <- as_float b ;;
      Ok (Float (fadd x y))
  end.

Definition is_zero (f : spec_float) : bool :=
  match f with
  | S754_zero _ => true
  | _ => false
  end.

(** [a / b] with a float dividend, as in [lambda x: 1.0 / x]. *)
Definition float_truediv (a : spec_float) (b : _TNumber) : result _TNumber :=
  y <- as_float b ;;
  if is_zero y then Raise ZeroDivisionError else Ok (Float (fdiv a y)).

(** Exact comparison of a float with an integer (no rounding of the
    integer), as CPython's [float_richcompare] does. *)
Definition float_eq_int (f : spec_float) (z : Z) : bool :=
  match f with
  | S754_zero _ => z =? 0
  | S754_finite s m e =>
      let v := cond_Zopp s (Zpos m) in
      if 0 <=? e then z =? v * 2 ^ e else z * 2 ^ (- e) =? v
  | _ => false
  end.

(** [a == b] *)
Definition num_eqb (a b : _TNumber) : bool :=
  match a, b with
  | Int x, Int y => x =? y
  | Float x, Float y => SFeqb x y
  | Float x, Int y => float_eq_int x y
  | Int x, Float y => float_eq_int y x
  end.

(** Neither an infinity nor a NaN. *)
Definition finite (a : _TNumber) : bool :=
  match a with
  | Int _ => true
  | Float (S754_zero _) => true
  | Float (S754_finite _ _ _) => true
  | Float _ => false
  end.

(** A float that is a genuine binary64 value (normalised mantissa). *)
Definition well_formed (a : _TNumber) : bool :=
  match a with
  | Int _ => true
  | Float f => valid_binary prec emax f
  end.

Definition is_int (a : _TNumber) : bool :=
  match a with
  | Int _ => true
  | Float _ => false
  end.

(** An integer that converts to a float without rounding. *)
Definition representable (z : Z) : bool :=
  match float_of_int z with
  | Ok f => float_eq_int f z
  | Raise _ => false
  end.

(** A value that float arithmetic takes in without error: a finite float,
    or an integer that is representable. *)
Definition float_exact (a : _TNumber) : bool :=
  match a with
  | Int z => representable z
  | Float _ => finite a && well_formed a
  end.

End PyNum.
Export PyNum.

(** ** Points, matrices and intervals *)

(** A point produced by [points] is a Python sequence of two numbers: a
    tuple [(x, y)] or a list [[x, y]].  Both support [point[0]] and
    [point[1]]; they differ under [==]. *)
Inductive point : Type :=
| PyTuple (x y : _TNumber)
| PyList (x y : _TNumber).

(** [point[0]] and [point[1]] *)
Definition item0 (p : point) : _TNumber :=
  match p with
  | PyTuple x _ | PyList x _ => x
  end.

Definition item1 (p : point) : _TNumber :=
  match p with
  | PyTuple _ y | PyList _ y => y
  end.

Definition is_tuple (p : point) : bool :=
  match p with
  | PyTuple _ _ => true
  | PyList _ _ => false
  end.

Definition is_list (p : point) : bool := negb (is_tuple p).

(** [p == q]: a tuple never equals a list; otherwise item by item. *)
Definition point_eqb (p q : point) : bool :=
  match p, q with
  | PyTuple a b, PyTuple c d => num_eqb a c && num_eqb b d
  | PyList a b, PyList c d => num_eqb a c && num_eqb b d
  | _, _ => false
  end.

(** [ps == qs] on lists of points. *)
Fixpoint points_eqb (ps qs : list point) : bool :=
  match ps, qs with
  | [], [] => true
  | p :: ps', q :: qs' => point_eqb p q && points_eqb ps' qs'
  | _, _ => false
  end.

(** Coordinates agree under [==], whatever the container. *)
Definition same_coords (p q : point) : bool :=
  num_eqb (item0 p) (item0 q) && num_eqb (item1 p) (item1 q).

(** [tuple[tuple[_TNumber, _TNumber], tuple[_TNumber, _TNumber]]] *)
Definition Matrix : Type := (_TNumber * _TNumber) * (_TNumber * _TNumber).

Definition m00 (m : Matrix) : _TNumber := fst (fst m).
Definition m01 (m : Matrix) : _TNumber := snd (fst m).
Definition m10 (m : Matrix) : _TNumber := fst (snd m).
Definition m11 (m : Matrix) : _TNumber := snd (snd m).

(** Modelled from the spec: the [Interval] class of [._interval], which
    [_curve.py] only imports and iterates.  It is a range description
    together with the finite, ordered, restartable sequence of samples
    that iterating it produces; iteration leaves the interval unchanged. *)
Record Interval : Type := {
  start : _TNumber;
  stop : _TNumber;
  step : _TNumber;
  samples : list _TNumber
}.

(** ** The classes of [_curve.py] *)

(** An instance is its class together with the attributes [__init__] stores;
    no method assigns to them afterwards.  A user-supplied callable is a
    function that returns a value or raises. *)
Inductive Curve : Type :=
| Function (function : _TNumber -> result _TNumber)
| ParametricFunction (parametric_function : _TNumber -> result point)
| TransformedCurve (matrix : Matrix) (curve : Curve).

Section Loops.
Context {A B : Type}.

(** [for x in xs: acc = body(acc, x)], stopping at the first exception. *)
Fixpoint for_each {S : Type} (xs : list A) (body : S -> A -> result S)
         (acc : S) : result S :=
  match xs with
  | [] => Ok acc
  | x :: rest => acc' <- body acc x ;; for_each rest body acc'
  end.

(** [acc.append(v)] *)
Definition append (acc : list B) (v : B) : list B := acc ++ [v].

(** [[elt(x) for x in xs]] *)
Definition comprehension (elt : A -> result B) (xs : list A)
  : result (list B) :=
  for_each xs (fun acc x => v <- elt x ;; Ok (append acc v)) [].
End Loops.

(** The list display inside the loop of [TransformedCurve.points]. *)
Definition transformed (matrix : Matrix) (p : point) : result point :=
  a <- py_mul (item0 p) (m00 matrix) ;;
  b <- py_mul (item1 p) (m01 matrix) ;;
  x' <- py_add a b ;;
  c <- py_mul (item0 p) (m10 matrix) ;;
  d <- py_mul (item1 p) (m11 matrix) ;;
  y' <- py_add c d ;;
  Ok (PyList x' y').

(** [Curve.points], dispatched on the class of [self]:
    [Function.points] (line 58), [ParametricFunction.points] (line 87) and
    [TransformedCurve.points] (lines 129-137). *)
Fixpoint points (self : Curve) (interval : Interval) : result (list point) :=
  match self with
  | Function function =>
      comprehension (fun x => y <- function x ;; Ok (PyTuple x y))
                    (samples interval)
  | ParametricFunction parametric_function =>
      comprehension (fun t => parametric_function t) (samples interval)
  | TransformedCurve matrix curve =>
      ps <- points curve interval ;;
      for_each ps
        (fun acc p => q <- transformed matrix p ;; Ok (append acc q)) []
  end.

(** ** Reference definitions (what the specification says) *)

(** [[f(x) for x in xs]] read as a map that fails as a whole at the first
    failing element. *)
Fixpoint traverse {A B : Type} (f : A -> result B) (xs : list A)
  : result (list B) :=
  match xs with
  | [] => Ok []
  | x :: rest =>
      match f x with
      | Raise e => Raise e
      | Ok v =>
          match traverse f rest with
          | Raise e => Raise e
          | Ok vs => Ok (v :: vs)
          end
      end
  end.

(** One coordinate of the matrix-vector product: [px * a + py * b]. *)
Definition dot (px py a b : _TNumber) : result _TNumber :=
  u <- py_mul px a ;;
  v <- py_mul py b ;;
  py_add u v.

(** The linear map of the specification:
    [x' = px * M[0][0] + py * M[0][1]], [y' = px * M[1][0] + py * M[1][1]]. *)
Definition linear_map (M : Matrix) (p : point) : result point :=
  x' <- dot (item0 p) (item1 p) (m00 M) (m01 M) ;;
  y' <- dot (item0 p) (item1 p) (m10 M) (m11 M) ;;
  Ok (PyList x' y').

(** The point a curve derives from a single sample. *)
Fixpoint sample_point (c : Curve) (x : _TNumber) : result point :=
  match c with
  | Function f => y <- f x ;; Ok (PyTuple x y)
  | ParametricFunction g => g x
  | TransformedCurve M c' => p <- sample_point c' x ;; linear_map M p
  end.

(** The matrix product [M2 x M1] in Python arithmetic. *)
Definition mat_mul (M2 M1 : Matrix) : result Matrix :=
  a <- dot (m00 M2) (m01 M2) (m00 M1) (m10 M1) ;;
  b <- dot (m00 M2) (m01 M2) (m01 M1) (m11 M1) ;;
  c <- dot (m10 M2) (m11 M2) (m00 M1) (m10 M1) ;;
  d <- dot (m10 M2) (m11 M2) (m01 M1) (m11 M1) ;;
  Ok ((a, b), (c, d)).

Definition int_matrix (a b c d : Z) : Matrix :=
  ((Int a, Int b), (Int c, Int d)).

Definition float_matrix (a b c d : spec_float) : Matrix :=
  ((Float a, Float b), (Float c, Float d)).

(** [((1, 0), (0, 1))] and [((0, 0), (0, 0))] *)
Definition identity_matrix : Matrix := int_matrix 1 0 0 1.
Definition zero_matrix : Matrix := int_matrix 0 0 0 0.

(** [n] nested [TransformedCurve] wrappers around [c]. *)
Fixpoint wrap (n : nat) (M : Matrix) (c : Curve) : Curve :=
  match n with
  | O => c
  | S n' => TransformedCurve M (wrap n' M c)
  end.

(** Classes of points used to delimit the arithmetic properties. *)
Definition int_point (p : point) : bool :=
  is_int (item0 p) && is_int (item1 p).

Definition exact_point (p : point) : bool :=
  int_point p || (float_exact (item0 p) && float_exact (item1 p)).

Definition finite_point (p : point) : bool :=
  finite (item0 p) && finite (item1 p).

(** Both coordinates compare equal to [0]. *)
Definition is_origin (p : point) : bool :=
  num_eqb (item0 p) (Int 0) && num_eqb (item1 p) (Int 0).

(** Every exception a callable may raise is an [exn]; [f] fails at [x]. *)
Definition fails_at {A B : Type} (f : A -> result B) (x : A) (e : exn) : Prop :=
  f x = Raise e.

Definition succeeds_on {A B : Type} (f : A -> result B) (xs : list A) : Prop :=
  Forall (fun a => exists v, f a = Ok v) xs.

(** Two intervals are equivalent when iterating them yields the same
    samples. *)
Definition equivalent (I1 I2 : Interval) : Prop :=
  samples I1 = samples I2.

(** ** Concrete inputs used by the examples *)

Definition interval_of (xs : list _TNumber) : Interval :=
  {| start := Int 0; stop := Int 0; step := Int 1; samples := xs |}.

(** [lambda x: x] *)
Definition identity_fn (x : _TNumber) : result _TNumber := Ok x.

(** [lambda x: x * x] *)
Definition square (x : _TNumber) : result _TNumber := py_mul x x.

(** [lambda x: 1.0 / x] *)
Definition reciprocal (x : _TNumber) : result _TNumber :=
  float_truediv (float_lit 1 0) x.

(** [lambda x: 0.5] *)
Definition half (_ : _TNumber) : result _TNumber := Ok (Float (float_lit 1 (-1))).

(** [lambda t: (2**53 + 1, 0.5)] *)
Definition off_grid (_ : _TNumber) : result point :=
  Ok (PyTuple (Int 9007199254740993) (Float (float_lit 1 (-1)))).

(** [lambda t: (t, t * t)] *)
Definition parabola (t : _TNumber) : result point :=
  y <- py_mul t t ;; Ok (PyTuple t y).

(** [((2, 0), (0, 2))] *)
Definition doubling : Matrix := int_matrix 2 0 0 2.

(** [((0, -1), (1, 0))] *)
Definition quarter_turn : Matrix := int_matrix 0 (-1) 1 0.

(** An interval whose samples are [1, 2, 3], and one with the same samples
    but another range description. *)
Definition one_to_three : Interval := interval_of [Int 1; Int 2; Int 3].
Definition one_to_three' : Interval :=
  {| start := Int 1; stop := Int 3; step := Int 1;
     samples := [Int 1; Int 2; Int 3] |}.

(** [((9007199254740994.0, -9007199254740992.0), (0.0, 0.0))], that is
    [((2.0**53 + 2, -2.0**53), (0.0, 0.0))], and
    [((3.0, 0.0), (0.0, 0.0))] *)
Definition cancelling : Matrix :=
  float_matrix (float_lit 9007199254740994 0)
               (float_lit (-9007199254740992) 0) float_zero float_zero.
Definition triple : Matrix :=
  float_matrix (float_lit 3 0) float_zero float_zero float_zero.

(** [((27021597764222984.0, -27021597764222976.0), (0.0, 0.0))], the
    product [triple x cancelling] as float arithmetic computes it *)
Definition triple_cancelling : Matrix :=
  float_matrix (float_lit 27021597764222984 0)
               (float_lit (-27021597764222976) 0) float_zero float_zero.

(** ** Notions used by the further properties of [points] *)

Definition is_float (a : _TNumber) : bool := negb (is_int a).

(** A number that mixed arithmetic can take as a float: a float, or an
    integer within the range of floats. *)
Definition convertible (a : _TNumber) : bool :=
  match as_float a with
  | Ok _ => true
  | Raise _ => false
  end.

Definition convertible_matrix (M : Matrix) : bool :=
  convertible (m00 M) && convertible (m01 M)
  && convertible (m10 M) && convertible (m11 M).

(** Both coordinates are floats (finite or not). *)
Definition float_coords (p : point) : bool :=
  is_float (item0 p) && is_float (item1 p).

(** The two items of a point, without its container. *)
Definition coords (p : point) : _TNumber * _TNumber := (item0 p, item1 p).

(** A 2x2 matrix of Python integers and its exact algebra. *)
Definition IntMatrix : Type := (Z * Z) * (Z * Z).

Definition of_int (m : IntMatrix) : Matrix :=
  int_matrix (fst (fst m)) (snd (fst m)) (fst (snd m)) (snd (snd m)).

Definition int_mul (m2 m1 : IntMatrix) : IntMatrix :=
  let '((a', b'), (c', d')) := m2 in
  let '((a, b), (c, d)) := m1 in
  ((a' * a + b' * c, a' * b + b' * d), (c' * a + d' * c, c' * b + d' * d)).

Fixpoint int_pow (m : IntMatrix) (n : nat) : IntMatrix :=
  match n with
  | O => ((1, 0), (0, 1))
  | S n' => int_mul m (int_pow m n')
  end.

(** [lambda x: math.sqrt(-1.0)]-like: a function that raises at every
    argument. *)
Definition always_fails (_ : _TNumber) : result _TNumber := Raise ValueError.

(** [lambda t: [t, t * t]], a parametric function that returns lists. *)
Definition parabola_list (t : _TNumber) : result point :=
  y <- py_mul t t ;; Ok (PyList t y).

(** [((0.5, 0), (0, 0.5))] *)
Definition halving : Matrix :=
  ((Float (float_lit 1 (-1)), Int 0), (Int 0, Float (float_lit 1 (-1)))).

(** [((1, 1), (0, 1))] *)
Definition shear : IntMatrix := ((1, 1), (0, 1)).

(** ** [Function.points] over a store of objects

    The definitions above treat instances and intervals as values.  To
    speak of mutation, this section runs line 58 of [_curve.py] on a store
    of objects addressed by references, with the writes that the list
    comprehension performs: the iterator it advances and the list it
    appends to. *)

Module Store.
Local Open Scope nat_scope.

(** A reference is a position in the store; allocation appends. *)
Definition ref : Type := nat.

Inductive object : Type :=
| FunctionObj (function : _TNumber -> result _TNumber)
| IntervalObj (I : Interval)
| IteratorObj (source : ref) (cursor : nat)
| ListObj (items : list point).

Definition store : Type := list object.

Definition read (s : store) (r : ref) : option object := nth_error s r.

Definition alloc (o : object) (s : store) : ref * store :=
  (length s, s ++ [o]).

Fixpoint write (s : store) (r : ref) (o : object) : store :=
  match s, r with
  | [], _ => []
  | _ :: rest, O => o :: rest
  | x :: rest, S r' => x :: write rest r' o
  end.

(** What running a piece of code gives: a value and the store it leaves, an
    exception and the store it leaves, or [Stuck] when a reference does not
    hold an object of the expected class or the fuel of a loop is spent. *)
Inductive outcome (A : Type) : Type :=
| Returns (a : A) (s : store)
| Raises (e : exn) (s : store)
| Stuck.
Arguments Returns {A} a s.
Arguments Raises {A} e s.
Arguments Stuck {A}.

(** Modelled from the spec: [iter(interval)] for the [Interval] class of
    [._interval], absent from the sources.  The interval is restartable:
    each iteration is a fresh traversal from its first sample, held by an
    iterator object of its own. *)
Definition py_iter (interval : ref) (s : store) : outcome ref :=
  match read s interval with
  | Some (IntervalObj _) =>
      let '(it, s') := alloc (IteratorObj interval 0) s in Returns it s'
  | _ => Stuck
  end.

(** Modelled from the spec: [next(it)] on an iterator of an [Interval].  It
    yields the sample under the cursor and advances the iterator, or
    signals the end ([None], Python's [StopIteration]); the interval is
    read, not written. *)
Definition py_next (it : ref) (s : store) : outcome (option _TNumber) :=
  match read s it with
  | Some (IteratorObj source cursor) =>
      match read s source with
      | Some (IntervalObj ivl) =>
          match nth_error (samples ivl) cursor with
          | Some x => Returns (Some x) (write s it (IteratorObj source (S cursor)))
          | None => Returns None s
          end
      | _ => Stuck
      end
  | _ => Stuck
  end.

(** [out.append(v)] on the list object at [out]. *)
Definition list_append (out : ref) (v : point) (s : store) : option store :=
  match read s out with
  | Some (ListObj items) => Some (write s out (ListObj (items ++ [v])))
  | _ => None
  end.

(** The loop of the comprehension [[(x, self.function(x)) for x in it]]:
    take the next sample, look up [self.function], call it, append the
    tuple to the list under construction. *)
Fixpoint comprehension_loop (fuel : nat) (self it out : ref) (s : store)
  : outcome ref :=
  match fuel with
  | O => Stuck
  | S fuel' =>
      match py_next it s with
      | Returns None s1 => Returns out s1
      | Returns (Some x) s1 =>
          match read s1 self with
          | Some (FunctionObj function) =>
              match function x with
              | Raise e => Raises e s1
              | Ok y =>
                  match list_append out (PyTuple x y) s1 with
                  | Some s2 => comprehension_loop fuel' self it out s2
                  | None => Stuck
                  end
              end
          | _ => Stuck
          end
      | Raises e s1 => Raises e s1
      | Stuck => Stuck
      end
  end.

(** [Function.points(self, interval)], line 58: the iterator of the
    interval is taken, a new list is created, and the loop fills it; the
    value returned is the reference of that list. *)
Definition Function_points (fuel : nat) (self interval : ref) (s : store)
  : outcome ref :=
  match py_iter interval s with
  | Returns it s1 =>
      let '(out, s2) := alloc (ListObj []) s1 in
      comprehension_loop fuel self it out s2
  | Raises e s1 => Raises e s1
  | Stuck => Stuck
  end.

(** Every object of [s] is still in [s'], at its reference and unchanged;
    [s'] may hold more objects. *)
Definition extends (s s' : store) : Prop := exists ext, s' = s ++ ext.

End Store.
Export Store.

(** A NaN, the one number that [==] finds unequal to itself. *)
Definition is_nan (a : _TNumber) : bool :=
  match a with
  | Float S754_nan => true
  | _ => false
  end.

Definition nan_free (p : point) : bool :=
  negb (is_nan (item0 p)) && negb (is_nan (item1 p)).

(** [lambda x: float('nan')] *)
Definition always_nan (_ : _TNumber) : result _TNumber := Ok (Float S754_nan).

(** A store with one [Function] instance and two intervals. *)
Definition three_objects : store :=
  [FunctionObj reciprocal; IntervalObj one_to_three;
   IntervalObj one_to_three'].

(** * Properties *)

(** ** Loops and comprehensions *)

Section LoopFacts.
Context {A B : Type}.
Variable elt : A -> result B.

Lemma for_each_append (xs : list A) : forall acc : list B,
  for_each xs (fun acc x => v <- elt x ;; Ok (append acc v)) acc
  = (vs <- traverse elt xs ;; Ok (acc ++ vs)).
Proof.
  induction xs as [|x xs IH]; intros acc; simpl.
  - now rewrite app_nil_r.
  - destruct (elt x) as [v|e]; simpl; [|reflexivity].
    rewrite IH. unfold append.
    destruct (traverse elt xs) as [vs|e]; simpl; [|reflexivity].
    now rewrite <- app_assoc.
Qed.

Lemma comprehension_traverse (xs : list A) :
  comprehension elt xs = traverse elt xs.
Proof.
  unfold comprehension. rewrite for_each_append.
  now destruct (traverse elt xs).
Qed.

Lemma traverse_Ok_iff (xs : list A) : forall ys : list B,
  traverse elt xs = Ok ys <-> Forall2 (fun x y => elt x = Ok y) xs ys.
Proof.
  induction xs as [|x xs IH]; intros ys; simpl.
  - split.
    + intros H. injection H as <-. constructor.
    + intros H. inversion H. reflexivity.
  - split.
    + destruct (elt x) as [v|e] eqn:Ex; [|discriminate].
      destruct (traverse elt xs) as [vs|e] eqn:Et; [|discriminate].
      intros H. injection H as <-. constructor; [assumption|].
      now apply IH.
    + intros H. inversion H as [|? y ? ys' Hy Hys]; subst.
      rewrite Hy. apply IH in Hys. now rewrite Hys.
Qed.

Lemma traverse_first_failure (pre : list A) (x : A) (post : list A) (e : exn) :
  succeeds_on elt pre -> fails_at elt x e ->
  traverse elt (pre ++ x :: post) = Raise e.
Proof.
  unfold succeeds_on, fails_at. intros Hpre Hx.
  induction Hpre as [|a pre [v Ha] _ IH]; simpl.
  - now rewrite Hx.
  - now rewrite Ha, IH.
Qed.

Lemma traverse_pure (h : A -> B) (xs : list A) :
  traverse (fun x => Ok (h x)) xs = Ok (map h xs).
Proof.
  induction xs as [|x xs IH]; simpl; [reflexivity|].
  now rewrite IH.
Qed.
End LoopFacts.

Lemma Forall2_nth_error_l {A B : Type} (R : A -> B -> Prop)
      (xs : list A) (ys : list B) :
  Forall2 R xs ys ->
  forall i x, nth_error xs i = Some x ->
              exists y, nth_error ys i = Some y /\ R x y.
Proof.
  induction 1 as [|x0 y0 xs ys Hxy _ IH]; intros i x Hi.
  - destruct i; discriminate.
  - destruct i as [|i]; simpl in *.
    + injection Hi as <-. now exists y0.
    + now apply IH.
Qed.

(** ** Unfolding [points] *)

(** The list display of the source computes the linear map of the
    specification. *)
Lemma transformed_linear_map (M : Matrix) (p : point) :
  transformed M p = linear_map M p.
Proof.
  unfold transformed, linear_map, dot.
  destruct (py_mul (item0 p) (m00 M)); simpl; [|reflexivity].
  destruct (py_mul (item1 p) (m01 M)); simpl; [|reflexivity].
  destruct (py_add a a0); simpl; [|reflexivity].
  destruct (py_mul (item0 p) (m10 M)); simpl; [|reflexivity].
  destruct (py_mul (item1 p) (m11 M)); simpl; reflexivity.
Qed.

Lemma traverse_ext {A B : Type} (f g : A -> result B) (xs : list A) :
  (forall x, f x = g x) -> traverse f xs = traverse g xs.
Proof.
  intros E. induction xs as [|x xs IH]; simpl; [reflexivity|].
  now rewrite E, IH.
Qed.

Lemma points_Function (f : _TNumber -> result _TNumber) (I : Interval) :
  points (Function f) I
  = traverse (fun x => y <- f x ;; Ok (PyTuple x y)) (samples I).
Proof. apply comprehension_traverse. Qed.

Lemma points_ParametricFunction (g : _TNumber -> result point) (I : Interval) :
  points (ParametricFunction g) I = traverse g (samples I).
Proof. simpl. apply comprehension_traverse. Qed.

Lemma points_TransformedCurve (M : Matrix) (C : Curve) (I : Interval) :
  points (TransformedCurve M C) I
  = (ps <- points C I ;; traverse (linear_map M) ps).
Proof.
  simpl. destruct (points C I) as [ps|e]; simpl; [|reflexivity].
  rewrite for_each_append.
  rewrite (traverse_ext _ _ ps (transformed_linear_map M)).
  now destruct (traverse (linear_map M) ps).
Qed.

Lemma points_TransformedCurve_Ok (M : Matrix) (C : Curve) (I : Interval)
      (Q : list point) :
  points (TransformedCurve M C) I = Ok Q <->
  exists P, points C I = Ok P /\ traverse (linear_map M) P = Ok Q.
Proof.
  rewrite points_TransformedCurve. split.
  - destruct (points C I) as [P|e]; simpl; [|discriminate].
    intros H. now exists P.
  - intros [P [-> H]]. exact H.
Qed.

(** ** Length and order of the output *)

Lemma Forall2_through {A B C : Type} (R : A -> B -> Prop) (S : B -> C -> Prop)
      (xs : list A) : forall zs : list C,
  Forall2 (fun x z => exists y, R x y /\ S y z) xs zs <->
  exists ys, Forall2 R xs ys /\ Forall2 S ys zs.
Proof.
  induction xs as [|x xs IH]; intros zs; split.
  - intros H. inversion H. exists []. split; constructor.
  - intros [ys [H1 H2]]. inversion H1; subst. inversion H2. constructor.
  - intros H. inversion H as [|? z ? zs' [y [Hxy Hyz]] Hrest]; subst.
    apply IH in Hrest as [ys [H1 H2]].
    exists (y :: ys). split; constructor; assumption.
  - intros [ys [H1 H2]].
    inversion H1 as [|? y ? ys' Hxy Hrest1]; subst.
    inversion H2 as [|? z ? zs' Hyz Hrest2]; subst.
    constructor; [now exists y|]. apply IH. now exists ys'.
Qed.

Lemma Forall2_iff_nth_error {A B : Type} (R : A -> B -> Prop) (xs : list A) :
  forall ys : list B,
  Forall2 R xs ys <->
  (length ys = length xs /\
   forall i x, nth_error xs i = Some x ->
               exists y, nth_error ys i = Some y /\ R x y).
Proof.
  induction xs as [|x xs IH]; intros ys; split.
  - intros H. inversion H. split; [reflexivity|].
    intros [|i] x Hi; discriminate.
  - intros [Hlen _]. destruct ys; [constructor|discriminate].
  - intros H. split.
    + apply Forall2_length in H. now symmetry.
    + now apply Forall2_nth_error_l.
  - intros [Hlen Hnth]. destruct ys as [|y ys]; [discriminate|].
    constructor.
    + destruct (Hnth O x eq_refl) as [y' [Hy' Hxy]].
      simpl in Hy'. now injection Hy' as <-.
    + apply IH. split; [now injection Hlen|].
      intros i x' Hi. exact (Hnth (S i) x' Hi).
Qed.

Lemma points_sample_point (C : Curve) (I : Interval) : forall P : list point,
  points C I = Ok P <->
  Forall2 (fun x p => sample_point C x = Ok p) (samples I) P.
Proof.
  induction C as [f|g|M C IH]; intros P.
  - rewrite points_Function. apply traverse_Ok_iff.
  - rewrite points_ParametricFunction. apply traverse_Ok_iff.
  - rewrite points_TransformedCurve_Ok. simpl.
    transitivity
      (Forall2 (fun x q => exists p, sample_point C x = Ok p
                                     /\ linear_map M p = Ok q) (samples I) P).
    + rewrite Forall2_through. split; intros [P' [H1 H2]]; exists P'.
      * split; [now apply IH | now apply traverse_Ok_iff].
      * split; [now apply IH | now apply traverse_Ok_iff].
    + split; apply Forall2_impl; intros x q Hxq.
      * destruct Hxq as [p [-> Hq]]. exact Hq.
      * destruct (sample_point C x) as [p|e] eqn:E; simpl in Hxq;
          [now exists p | discriminate].
Qed.

(** C1: for each of the three curve variants and every interval, the list
    that [points] returns has as many elements as the interval has samples,
    and its i-th element is the point derived from the i-th sample; and
    conversely [points] returns exactly when every sample yields a point. *)
Theorem points_length_and_order (C : Curve) (I : Interval) (P : list point) :
  points C I = Ok P <->
  (length P = length (samples I) /\
   forall i x, nth_error (samples I) i = Some x ->
               exists p, nth_error P i = Some p /\ sample_point C x = Ok p).
Proof.
  rewrite points_sample_point. apply Forall2_iff_nth_error.
Qed.

(** C2: [Function(f).points(I)] is the list of pairs [(x, f(x))] taken over
    the samples of [I] in order: same length, and at every index the tuple
    of the sample and of [f] applied to it. *)
Theorem Function_points_pairs (f : _TNumber -> result _TNumber) (I : Interval) :
  (forall P, points (Function f) I = Ok P ->
     length P = length (samples I) /\
     forall i x, nth_error (samples I) i = Some x ->
                 exists y, f x = Ok y /\ nth_error P i = Some (PyTuple x y)) /\
  (forall h : _TNumber -> _TNumber, (forall x, f x = Ok (h x)) ->
     points (Function f) I = Ok (map (fun x => PyTuple x (h x)) (samples I))).
Proof.
  split.
  - intros P HP.
    apply points_sample_point, Forall2_iff_nth_error in HP as [Hlen Hnth].
    split; [exact Hlen|]. intros i x Hi.
    destruct (Hnth i x Hi) as [p [Hp Hs]]. simpl in Hs.
    destruct (f x) as [y|e] eqn:E; simpl in Hs; [|discriminate].
    exists y. split; [reflexivity|]. now injection Hs as <-.
  - intros h Hh. rewrite points_Function.
    rewrite (traverse_ext _ (fun x => Ok (PyTuple x (h x)))).
    + apply (traverse_pure (fun x => PyTuple x (h x))).
    + intros x. now rewrite Hh.
Qed.

(** C3: [ParametricFunction(g).points(I)] is exactly [[g(t) for t in I]]:
    the results of [g] at the samples, in order, emitted as they are. *)
Theorem ParametricFunction_points_exact (g : _TNumber -> result point)
        (I : Interval) :
  points (ParametricFunction g) I = traverse g (samples I) /\
  (forall h : _TNumber -> point, (forall t, g t = Ok (h t)) ->
     points (ParametricFunction g) I = Ok (map h (samples I))).
Proof.
  split; [apply points_ParametricFunction|].
  intros h Hh. rewrite points_ParametricFunction.
  rewrite (traverse_ext _ (fun t => Ok (h t))) by exact Hh.
  apply traverse_pure.
Qed.

(** C4: [TransformedCurve(M, C).points(I)] first computes [P = C.points(I)]
    and then maps every point of [P], in order, to
    [[px*M[0][0] + py*M[0][1], px*M[1][0] + py*M[1][1]]]; the output has the
    length and the order of [P]. *)
Theorem TransformedCurve_points_linear_map (M : Matrix) (C : Curve)
        (I : Interval) :
  points (TransformedCurve M C) I
  = (P <- points C I ;; traverse (linear_map M) P) /\
  (forall P Q, points C I = Ok P -> points (TransformedCurve M C) I = Ok Q ->
     length Q = length P /\
     forall i p, nth_error P i = Some p ->
       exists x' y',
         dot (item0 p) (item1 p) (m00 M) (m01 M) = Ok x' /\
         dot (item0 p) (item1 p) (m10 M) (m11 M) = Ok y' /\
         nth_error Q i = Some (PyList x' y')).
Proof.
  split; [apply points_TransformedCurve|].
  intros P Q HP HQ. rewrite points_TransformedCurve, HP in HQ. simpl in HQ.
  apply traverse_Ok_iff, Forall2_iff_nth_error in HQ as [Hlen Hnth].
  split; [exact Hlen|]. intros i p Hi.
  destruct (Hnth i p Hi) as [q [Hq Hmap]].
  unfold linear_map in Hmap.
  destruct (dot (item0 p) (item1 p) (m00 M) (m01 M)) as [x'|e] eqn:Ex;
    simpl in Hmap; [|discriminate].
  destruct (dot (item0 p) (item1 p) (m10 M) (m11 M)) as [y'|e] eqn:Ey;
    simpl in Hmap; [|discriminate].
  injection Hmap as <-.
  now exists x', y'.
Qed.

(** ** Binary64 arithmetic with [1.0] and [0.0] *)

Section FloatFacts.

Lemma float_of_int_1 : float_of_int 1 = Ok float_one.
Proof. reflexivity. Qed.

Lemma float_of_int_0 : float_of_int 0 = Ok float_zero.
Proof. reflexivity. Qed.

(** Dropping the 52 low zero bits of [m * 2^52] is exact. *)
Lemma shr_52_exact (m : positive) :
  iter_pos shr_1 52
    (Build_shr_record (Zpos (4503599627370496 * m)) false false)
  = Build_shr_record (Zpos m) false false.
Proof. reflexivity. Qed.

Lemma digits2_shift_52 (m : positive) :
  Zpos (digits2_pos (4503599627370496 * m)) = Zpos (digits2_pos m) + 52.
Proof.
  cbn [Pos.mul digits2_pos]. repeat rewrite Pos2Z.inj_succ. lia.
Qed.

Lemma fmul_one_normal (s : bool) (m : positive) (e : Z) :
  bounded prec emax m e = true ->
  fmul (S754_finite s m e) float_one = S754_finite s m e.
Proof.
  unfold bounded, canonical_mantissa. intros H.
  apply andb_true_iff in H as [Hc Hb]. apply Z.eqb_eq in Hc.
  unfold fmul, float_one, SFmul, binary_round_aux, shr_fexp.
  rewrite Pos.mul_comm. unfold Zdigits2 at 1.
  rewrite digits2_shift_52.
  replace (Zpos (digits2_pos m) + 52 + (e + -52))
    with (Zpos (digits2_pos m) + e) by lia.
  rewrite Hc.
  replace (e - (e + -52)) with 52 by lia.
  unfold shr at 1. cbn [shr_record_of_loc].
  rewrite shr_52_exact.
  cbn [loc_of_shr_record shr_m round_nearest_even].
  replace (e + -52 + 52) with e by lia.
  unfold Zdigits2. rewrite Hc, Z.sub_diag.
  cbn [shr shr_record_of_loc shr_m].
  rewrite Hb. now rewrite xorb_false_r.
Qed.

(** [x * 1.0] is [x] for every finite binary64 value. *)
Lemma fmul_one (x : spec_float) :
  finite (Float x) = true -> well_formed (Float x) = true ->
  fmul x float_one = x.
Proof.
  destruct x as [s|s| |s m e]; simpl; intros Hf Hv; try discriminate.
  - unfold fmul, float_one. simpl. now rewrite xorb_false_r.
  - now apply fmul_one_normal.
Qed.

(** [x * 0.0] is a zero for every finite [x]. *)
Lemma fmul_zero (x : spec_float) :
  finite (Float x) = true -> is_zero (fmul x float_zero) = true.
Proof. destruct x; simpl; intros Hf; try discriminate; reflexivity. Qed.

Lemma SFeqb_finite_refl (x : spec_float) :
  finite (Float x) = true -> SFeqb x x = true.
Proof.
  destruct x as [s|s| |s m e]; simpl; intros Hf; try discriminate.
  - reflexivity.
  - unfold SFeqb, SFcompare.
    rewrite Z.compare_refl, Pos.compare_cont_refl. now destruct s.
Qed.

(** Adding a zero leaves a finite value unchanged up to [==]. *)
Lemma fadd_zero_r (x z : spec_float) :
  finite (Float x) = true -> is_zero z = true -> SFeqb (fadd x z) x = true.
Proof.
  destruct z as [sz| | |]; try discriminate. intros Hf _.
  destruct x as [s|s| |s m e]; try discriminate.
  - now destruct s, sz.
  - apply (SFeqb_finite_refl (S754_finite s m e)). reflexivity.
Qed.

Lemma fadd_zero_l (x z : spec_float) :
  finite (Float x) = true -> is_zero z = true -> SFeqb (fadd z x) x = true.
Proof.
  destruct z as [sz| | |]; try discriminate. intros Hf _.
  destruct x as [s|s| |s m e]; try discriminate.
  - now destruct s, sz.
  - apply (SFeqb_finite_refl (S754_finite s m e)). reflexivity.
Qed.

Lemma fadd_zero_zero (y z : spec_float) :
  is_zero y = true -> is_zero z = true -> is_zero (fadd y z) = true.
Proof.
  destruct y as [sy| | |], z as [sz| | |]; try discriminate.
  now destruct sy, sz.
Qed.

Lemma zero_eq_int_0 (z : spec_float) :
  is_zero z = true -> num_eqb (Float z) (Int 0) = true.
Proof. destruct z; try discriminate. reflexivity. Qed.

End FloatFacts.

(** ** The rows of the identity, zero and integer matrices *)

Ltac float_operands :=
  unfold dot, py_mul, py_add, as_float; cbn [bind];
  repeat (rewrite ?Z.mul_0_r, ?Z.mul_1_r, ?Z.add_0_r, ?Z.add_0_l,
                  ?float_of_int_1, ?float_of_int_0; cbn [bind]).

Lemma fadd_zero_r_int (x z : spec_float) (a : Z) :
  float_eq_int x a = true -> is_zero z = true ->
  float_eq_int (fadd x z) a = true.
Proof.
  destruct z as [sz| | |]; try discriminate. intros Hx _.
  destruct x as [s|s| |s m e]; try discriminate; [|exact Hx].
  now destruct s, sz.
Qed.

Lemma fadd_zero_l_int (x z : spec_float) (a : Z) :
  float_eq_int x a = true -> is_zero z = true ->
  float_eq_int (fadd z x) a = true.
Proof.
  destruct z as [sz| | |]; try discriminate. intros Hx _.
  destruct x as [s|s| |s m e]; try discriminate; [|exact Hx].
  now destruct s, sz.
Qed.

(** What [exact_point] says of each coordinate. *)
Lemma float_exact_Float (x : spec_float) :
  float_exact (Float x) = true ->
  finite (Float x) = true /\ well_formed (Float x) = true.
Proof. cbn [float_exact]. apply andb_true_iff. Qed.

Lemma float_exact_Int (a : Z) :
  float_exact (Int a) = true ->
  exists fa, float_of_int a = Ok fa /\ float_eq_int fa a = true.
Proof.
  cbn [float_exact]. unfold representable.
  destruct (float_of_int a) as [fa|]; [|discriminate].
  intros H. now exists fa.
Qed.

Lemma exact_point_cases (p : point) :
  exact_point p = true ->
  int_point p = true \/
  (float_exact (item0 p) = true /\ float_exact (item1 p) = true).
Proof.
  unfold exact_point. intros H. apply orb_true_iff in H as [H|H].
  - now left.
  - right. now apply andb_true_iff.
Qed.

Lemma dot_identity_row0 (p : point) :
  exact_point p = true ->
  exists x', dot (item0 p) (item1 p) (Int 1) (Int 0) = Ok x'
             /\ num_eqb x' (item0 p) = true.
Proof.
  intros H. apply exact_point_cases in H. unfold int_point in H.
  destruct (item0 p) as [a|x], (item1 p) as [b|y].
  - exists (Int a). split; [float_operands; reflexivity|]. apply Z.eqb_refl.
  - destruct H as [H|[Ha Hy]]; [discriminate|].
    apply float_exact_Int in Ha as [fa [Ea Ha]].
    apply float_exact_Float in Hy as [Hy _].
    float_operands. rewrite Ea. cbn [bind].
    eexists. split; [reflexivity|]. cbn [num_eqb].
    apply fadd_zero_r_int; [assumption | now apply fmul_zero].
  - destruct H as [H|[Hx _]]; [discriminate|].
    apply float_exact_Float in Hx as [Hx Hw].
    float_operands. rewrite (fmul_one x Hx Hw).
    eexists. split; [reflexivity|]. cbn [num_eqb].
    now apply fadd_zero_r.
  - destruct H as [H|[Hx Hy]]; [discriminate|].
    apply float_exact_Float in Hx as [Hx Hw].
    apply float_exact_Float in Hy as [Hy _].
    float_operands. rewrite (fmul_one x Hx Hw).
    eexists. split; [reflexivity|]. cbn [num_eqb].
    apply fadd_zero_r; [assumption | now apply fmul_zero].
Qed.

Lemma dot_identity_row1 (p : point) :
  exact_point p = true ->
  exists y', dot (item0 p) (item1 p) (Int 0) (Int 1) = Ok y'
             /\ num_eqb y' (item1 p) = true.
Proof.
  intros H. apply exact_point_cases in H. unfold int_point in H.
  destruct (item0 p) as [a|x], (item1 p) as [b|y].
  - exists (Int b). split; [float_operands; reflexivity|]. apply Z.eqb_refl.
  - destruct H as [H|[_ Hy]]; [discriminate|].
    apply float_exact_Float in Hy as [Hy Hw].
    float_operands. rewrite (fmul_one y Hy Hw).
    eexists. split; [reflexivity|]. cbn [num_eqb].
    now apply fadd_zero_l.
  - destruct H as [H|[Hx Hb]]; [discriminate|].
    apply float_exact_Int in Hb as [fb [Eb Hb]].
    apply float_exact_Float in Hx as [Hx _].
    float_operands. rewrite Eb. cbn [bind].
    eexists. split; [reflexivity|]. cbn [num_eqb].
    apply fadd_zero_l_int; [assumption | now apply fmul_zero].
  - destruct H as [H|[Hx Hy]]; [discriminate|].
    apply float_exact_Float in Hx as [Hx _].
    apply float_exact_Float in Hy as [Hy Hw].
    float_operands. rewrite (fmul_one y Hy Hw).
    eexists. split; [reflexivity|]. cbn [num_eqb].
    apply fadd_zero_l; [assumption | now apply fmul_zero].
Qed.

Lemma dot_zero_row (p : point) :
  finite_point p = true ->
  exists x', dot (item0 p) (item1 p) (Int 0) (Int 0) = Ok x'
             /\ num_eqb x' (Int 0) = true.
Proof.
  unfold finite_point. intros H. apply andb_true_iff in H as [Hfx Hfy].
  destruct (item0 p) as [a|x], (item1 p) as [b|y]; float_operands;
    (eexists; split; [reflexivity|]); try reflexivity;
    apply zero_eq_int_0; apply fadd_zero_zero;
    try reflexivity; now apply fmul_zero.
Qed.

Lemma linear_map_identity (p : point) :
  exact_point p = true ->
  exists q, linear_map identity_matrix p = Ok q /\ same_coords q p = true.
Proof.
  intros H.
  destruct (dot_identity_row0 p H) as [x' [Hx Ex]].
  destruct (dot_identity_row1 p H) as [y' [Hy Ey]].
  exists (PyList x' y'). unfold linear_map, identity_matrix, int_matrix.
  cbn [m00 m01 m10 m11 fst snd]. rewrite Hx, Hy. split; [reflexivity|].
  unfold same_coords. cbn [item0 item1]. now rewrite Ex, Ey.
Qed.

Lemma linear_map_zero (p : point) :
  finite_point p = true ->
  exists q, linear_map zero_matrix p = Ok q /\ is_origin q = true.
Proof.
  intros H. destruct (dot_zero_row p H) as [x' [Hx Ex]].
  exists (PyList x' x'). unfold linear_map, zero_matrix, int_matrix.
  cbn [m00 m01 m10 m11 fst snd]. rewrite Hx. split; [reflexivity|].
  unfold is_origin. cbn [item0 item1]. now rewrite Ex.
Qed.

Lemma linear_map_int (a b c d : Z) (p : point) :
  int_point p = true ->
  exists x y, item0 p = Int x /\ item1 p = Int y /\
    linear_map (int_matrix a b c d) p
    = Ok (PyList (Int (x * a + y * b)) (Int (x * c + y * d))).
Proof.
  unfold int_point, linear_map.
  destruct (item0 p) as [x|], (item1 p) as [y|]; try discriminate.
  intros _. now exists x, y.
Qed.

(** A statement about every element of [traverse]'s output, from one about
    each call. *)
Lemma traverse_pointwise {A B : Type} (f : A -> result B)
      (R : A -> B -> Prop) (xs : list A) :
  Forall (fun x => exists y, f x = Ok y /\ R x y) xs ->
  exists ys, traverse f xs = Ok ys /\ Forall2 R xs ys.
Proof.
  induction 1 as [|x xs [y [Hy Rxy]] _ [ys [IH1 IH2]]]; simpl.
  - exists []. split; [reflexivity | constructor].
  - exists (y :: ys). rewrite Hy, IH1. split; [reflexivity|].
    now constructor.
Qed.

Lemma Forall2_Forall_r {A B : Type} (R : A -> B -> Prop) (Q : B -> Prop)
      (xs : list A) (ys : list B) :
  Forall2 R xs ys -> (forall x y, R x y -> Q y) -> Forall Q ys.
Proof. induction 1; intros HQ; constructor; eauto. Qed.

(** ** Identity, zero and composed transformations *)

Lemma traverse_identity_same_coords (P : list point) :
  Forall (fun p => exact_point p = true) P ->
  exists Q, traverse (linear_map identity_matrix) P = Ok Q /\
            Forall2 (fun p q => same_coords q p = true) P Q.
Proof.
  intros Hdom. apply traverse_pointwise.
  eapply Forall_impl; [|exact Hdom]. intros p Hp.
  now apply linear_map_identity.
Qed.

(** C5 (amended): under the identity matrix the transformed curve has, point
    for point and in order, coordinates that compare equal to those of the
    wrapped curve's points, whenever each of those points has two integer
    coordinates, or coordinates that are finite floats or integers exactly
    representable as floats. *)
Theorem identity_transform_same_coords (C : Curve) (I : Interval)
        (P : list point) :
  points C I = Ok P ->
  Forall (fun p => exact_point p = true) P ->
  exists Q, points (TransformedCurve identity_matrix C) I = Ok Q /\
            length Q = length P /\
            Forall2 (fun p q => same_coords q p = true) P Q.
Proof.
  intros HP Hdom. rewrite points_TransformedCurve, HP. cbn [bind].
  destruct (traverse_identity_same_coords P Hdom) as [Q [HQ HF]].
  exists Q. split; [exact HQ|]. split; [|exact HF].
  symmetry. exact (Forall2_length HF).
Qed.

(** C5, as stated, fails: [ParametricFunction(lambda t: (2**53 + 1, 0.5))]
    gives the point [(9007199254740993, 0.5)] at any sample, and the
    identity transform turns it into [[9007199254740992.0, 0.5]], whose
    first coordinate is a different value (and the two lists of points are
    not [==]). *)
Lemma identity_transform_not_equal :
  points (ParametricFunction off_grid) (interval_of [Float float_zero])
  = Ok [PyTuple (Int 9007199254740993) (Float (float_lit 1 (-1)))] /\
  points (TransformedCurve identity_matrix (ParametricFunction off_grid))
         (interval_of [Float float_zero])
  = Ok [PyList (Float (float_lit 9007199254740992 0))
               (Float (float_lit 1 (-1)))] /\
  num_eqb (Float (float_lit 9007199254740992 0)) (Int 9007199254740993)
  = false /\
  points_eqb [PyList (Float (float_lit 9007199254740992 0))
                     (Float (float_lit 1 (-1)))]
             [PyTuple (Int 9007199254740993) (Float (float_lit 1 (-1)))]
  = false.
Proof. split; [|split; [|split]]; vm_compute; reflexivity. Qed.

(** C7 (amended): under the zero matrix every output point has both
    coordinates equal to [0], provided the wrapped curve's points have
    finite coordinates (no infinity, no NaN); the output keeps the length
    of the wrapped curve's output. *)
Theorem zero_transform_origin (C : Curve) (I : Interval) (P : list point) :
  points C I = Ok P ->
  Forall (fun p => finite_point p = true) P ->
  exists Q, points (TransformedCurve zero_matrix C) I = Ok Q /\
            length Q = length P /\
            Forall (fun q => is_origin q = true) Q.
Proof.
  intros HP Hfin. rewrite points_TransformedCurve, HP. cbn [bind].
  destruct (traverse_pointwise (linear_map zero_matrix)
              (fun _ q => is_origin q = true) P) as [Q [HQ HF]].
  - eapply Forall_impl; [|exact Hfin]. intros p Hp.
    now apply linear_map_zero.
  - exists Q. split; [exact HQ|]. split.
    + symmetry. exact (Forall2_length HF).
    + apply (Forall2_Forall_r _ _ _ _ HF). auto.
Qed.

(** C7, as stated, fails: [Function(lambda x: x * x)] sampled at [2.0**600]
    gives [(2.0**600, inf)], and the zero matrix turns it into
    [[nan, nan]], not the origin. *)
Lemma zero_transform_not_origin :
  points (Function square) (interval_of [Float (float_lit 1 600)])
  = Ok [PyTuple (Float (float_lit 1 600)) (Float (S754_infinity false))] /\
  points (TransformedCurve zero_matrix (Function square))
         (interval_of [Float (float_lit 1 600)])
  = Ok [PyList (Float S754_nan) (Float S754_nan)] /\
  is_origin (PyList (Float S754_nan) (Float S754_nan)) = false.
Proof. split; [|split]; vm_compute; reflexivity. Qed.

Section IntegerMatrices.
Variables a b c d a' b' c' d' : Z.

Let M1 : Matrix := int_matrix a b c d.
Let M2 : Matrix := int_matrix a' b' c' d'.
Let M21 : Matrix :=
  int_matrix (a' * a + b' * c) (a' * b + b' * d)
             (c' * a + d' * c) (c' * b + d' * d).

Lemma mat_mul_int : mat_mul M2 M1 = Ok M21.
Proof. reflexivity. Qed.

Lemma compose_linear_map_int (P : list point) :
  Forall (fun p => int_point p = true) P ->
  (Q <- traverse (linear_map M1) P ;; traverse (linear_map M2) Q)
  = traverse (linear_map M21) P.
Proof.
  induction 1 as [|p P Hp _ IH]; [reflexivity|].
  destruct (linear_map_int a b c d p Hp) as [x [y [Hx [Hy H1]]]].
  destruct (linear_map_int (a' * a + b' * c) (a' * b + b' * d)
              (c' * a + d' * c) (c' * b + d' * d) p Hp)
    as [x2 [y2 [Hx2 [Hy2 H21]]]].
  rewrite Hx in Hx2. injection Hx2 as <-.
  rewrite Hy in Hy2. injection Hy2 as <-.
  cbn [traverse]. fold M1 in H1. fold M21 in H21. rewrite H1, H21, <- IH.
  destruct (traverse (linear_map M1) P) as [vs|e]; cbn [bind]; [|reflexivity].
  cbn [traverse].
  replace (linear_map M2 (PyList (Int (x * a + y * b)) (Int (x * c + y * d))))
    with (Ok (PyList (Int (x * (a' * a + b' * c) + y * (a' * b + b' * d)))
                     (Int (x * (c' * a + d' * c) + y * (c' * b + d' * d))))).
  - reflexivity.
  - unfold M2, linear_map, dot, int_matrix. simpl.
    f_equal. f_equal; f_equal; ring.
Qed.

Lemma traverse_linear_map_int (P : list point) :
  Forall (fun p => int_point p = true) P ->
  exists Q, traverse (linear_map M1) P = Ok Q /\
            length Q = length P /\
            Forall (fun q => int_point q = true) Q.
Proof.
  intros HP.
  destruct (traverse_pointwise (linear_map M1)
              (fun _ q => int_point q = true) P) as [Q [HQ HF]].
  - eapply Forall_impl; [|exact HP]. intros p Hp.
    destruct (linear_map_int a b c d p Hp) as [x [y [_ [_ H]]]].
    eexists. split; [exact H | reflexivity].
  - exists Q. split; [exact HQ|]. split.
    + symmetry. exact (Forall2_length HF).
    + apply (Forall2_Forall_r _ _ _ _ HF). auto.
Qed.

Lemma wrap_int (C : Curve) (I : Interval) (P : list point) (n : nat) :
  points C I = Ok P -> Forall (fun p => int_point p = true) P ->
  exists Q, points (wrap n M1 C) I = Ok Q /\
            length Q = length P /\
            Forall (fun q => int_point q = true) Q.
Proof.
  intros HP Hint. induction n as [|n [Q [HQ [Hlen HQint]]]].
  - now exists P.
  - destruct (traverse_linear_map_int Q HQint) as [Q' [HQ' [Hlen' Hint']]].
    exists Q'. cbn [wrap]. rewrite points_TransformedCurve, HQ. cbn [bind].
    split; [exact HQ'|]. split; [congruence | exact Hint'].
Qed.

End IntegerMatrices.

(** C6 (amended): when the matrices and the wrapped curve's coordinates are
    Python integers, transforming by [M1] and then by [M2] gives exactly
    the points of the single transformation by the product [M2 x M1]; and
    such a curve may be wrapped to any depth, the output keeping its
    length. *)
Theorem composition_on_integers (a b c d a' b' c' d' : Z)
        (C : Curve) (I : Interval) :
  (forall P, points C I = Ok P -> Forall (fun p => int_point p = true) P) ->
  (exists M,
     mat_mul (int_matrix a' b' c' d') (int_matrix a b c d) = Ok M /\
     points (TransformedCurve (int_matrix a' b' c' d')
               (TransformedCurve (int_matrix a b c d) C)) I
     = points (TransformedCurve M C) I) /\
  (forall n P, points C I = Ok P ->
     exists Q, points (wrap n (int_matrix a b c d) C) I = Ok Q /\
               length Q = length P).
Proof.
  intros Hint. split.
  - eexists. split; [apply mat_mul_int|].
    rewrite !points_TransformedCurve.
    destruct (points C I) as [P|e] eqn:HP; cbn [bind]; [|reflexivity].
    apply compose_linear_map_int. now apply Hint.
  - intros n P HP.
    destruct (wrap_int a b c d C I P n HP (Hint P HP)) as [Q [HQ [Hlen _]]].
    now exists Q.
Qed.

(** C6, as stated, fails on floats, and by more than rounding: with
    [M1 = ((2.0**53 + 2, -2.0**53), (0.0, 0.0))] and
    [M2 = ((3.0, 0.0), (0.0, 0.0))], all entries finite, the point
    [(1.0, 1.0)] of [Function(lambda x: x)] goes to [[6.0, 0.0]] through the
    nested transformation and to [[8.0, 0.0]] through the product matrix
    (whose entry [3.0 * (2.0**53 + 2)] is rounded to [27021597764222984.0]
    before the two large terms cancel). *)
Lemma composition_differs_on_floats :
  mat_mul triple cancelling = Ok triple_cancelling /\
  points (TransformedCurve triple (TransformedCurve cancelling
            (Function identity_fn))) (interval_of [Float float_one])
  = Ok [PyList (Float (float_lit 6 0)) (Float float_zero)] /\
  points (TransformedCurve triple_cancelling (Function identity_fn))
         (interval_of [Float float_one])
  = Ok [PyList (Float (float_lit 8 0)) (Float float_zero)] /\
  points_eqb [PyList (Float (float_lit 6 0)) (Float float_zero)]
             [PyList (Float (float_lit 8 0)) (Float float_zero)]
  = false.
Proof. split; [|split; [|split]]; vm_compute; reflexivity. Qed.

(** ** Failures, determinism and the shape of the output *)

Lemma tupled_succeeds (f : _TNumber -> result _TNumber) (xs : list _TNumber) :
  succeeds_on f xs ->
  succeeds_on (fun x => y <- f x ;; Ok (PyTuple x y)) xs.
Proof.
  unfold succeeds_on. apply Forall_impl. intros x [y Hy].
  exists (PyTuple x y). now rewrite Hy.
Qed.

(** C8: when the supplied function fails at a sample, all earlier samples
    having succeeded, [points] raises that very exception and returns no
    list, whatever the function would do on the later samples; this holds
    for [Function] and [ParametricFunction], and [TransformedCurve] raises
    unchanged whatever its wrapped curve raises. *)
Theorem failure_propagates :
  (forall (f : _TNumber -> result _TNumber) (I : Interval) pre x post e,
     samples I = pre ++ x :: post -> succeeds_on f pre -> fails_at f x e ->
     points (Function f) I = Raise e) /\
  (forall (g : _TNumber -> result point) (I : Interval) pre t post e,
     samples I = pre ++ t :: post -> succeeds_on g pre -> fails_at g t e ->
     points (ParametricFunction g) I = Raise e) /\
  (forall (M : Matrix) (C : Curve) (I : Interval) e,
     points C I = Raise e -> points (TransformedCurve M C) I = Raise e).
Proof.
  split; [|split].
  - intros f I pre x post e HI Hpre Hx.
    rewrite points_Function, HI. apply traverse_first_failure.
    + now apply tupled_succeeds.
    + unfold fails_at in *. now rewrite Hx.
  - intros g I pre t post e HI Hpre Ht.
    rewrite points_ParametricFunction, HI.
    now apply traverse_first_failure.
  - intros M C I e HC. now rewrite points_TransformedCurve, HC.
Qed.

Lemma points_depends_on_samples (C : Curve) (I1 I2 : Interval) :
  equivalent I1 I2 -> points C I1 = points C I2.
Proof.
  unfold equivalent. intros E. induction C as [f|g|M C IH].
  - now rewrite !points_Function, E.
  - now rewrite !points_ParametricFunction, E.
  - now rewrite !points_TransformedCurve, IH.
Qed.

(** ** [Function.points] on the store: what it writes *)

Section StoreFacts.
Local Open Scope nat_scope.

Lemma read_extends (s s' : store) (r : ref) (o : object) :
  extends s s' -> read s r = Some o -> read s' r = Some o.
Proof.
  intros [ext ->] H. unfold read in *.
  rewrite nth_error_app1; [exact H|].
  apply nth_error_Some. congruence.
Qed.

Lemma extends_trans (s s' s'' : store) :
  extends s s' -> extends s' s'' -> extends s s''.
Proof.
  intros [e1 ->] [e2 ->]. exists (e1 ++ e2). now rewrite app_assoc.
Qed.

Lemma read_fresh (s ext : store) (k : nat) :
  read (s ++ ext) (length s + k) = nth_error ext k.
Proof.
  unfold read. rewrite nth_error_app2 by lia.
  f_equal. lia.
Qed.

Lemma read_beyond (s : store) (k : nat) : read s (length s + k) = None.
Proof. apply nth_error_None. lia. Qed.

Lemma write_fresh (s ext : store) (k : nat) (o : object) :
  write (s ++ ext) (length s + k) o = s ++ write ext k o.
Proof.
  induction s as [|x s IH]; cbn [app length Nat.add write]; [reflexivity|].
  now rewrite IH.
Qed.

Variable f : _TNumber -> result _TNumber.
Variable ivl : Interval.
Variable s : store.
Variables self i : ref.
Hypothesis Hself : read s self = Some (FunctionObj f).
Hypothesis Hivl : read s i = Some (IntervalObj ivl).

(** The store while the loop runs: the caller's objects, then the iterator
    and the list under construction. *)
Let running (k : nat) (acc : list point) : store :=
  s ++ [IteratorObj i k; ListObj acc].

Lemma py_next_running (k : nat) (acc : list point) :
  py_next (length s + 0) (running k acc)
  = match nth_error (samples ivl) k with
    | Some x => Returns (Some x) (running (S k) acc)
    | None => Returns None (running k acc)
    end.
Proof.
  unfold py_next, running. rewrite read_fresh. cbn [nth_error].
  rewrite (read_extends s _ i _ (ex_intro _ _ eq_refl) Hivl).
  destruct (nth_error (samples ivl) k); [|reflexivity].
  now rewrite write_fresh.
Qed.

Lemma list_append_running (k : nat) (acc : list point) (v : point) :
  list_append (length s + 1) v (running k acc)
  = Some (running k (acc ++ [v])).
Proof.
  unfold list_append, running. rewrite read_fresh. cbn [nth_error].
  now rewrite write_fresh.
Qed.

Lemma loop_stop (k : nat) (acc : list point) (fuel : nat) :
  nth_error (samples ivl) k = None ->
  comprehension_loop (S fuel) self (length s + 0) (length s + 1)
                     (running k acc)
  = Returns (length s + 1) (running k acc).
Proof.
  intros Hk. cbn [comprehension_loop]. now rewrite py_next_running, Hk.
Qed.

Lemma loop_yield (k : nat) (acc : list point) (fuel : nat) (x : _TNumber) :
  nth_error (samples ivl) k = Some x ->
  comprehension_loop (S fuel) self (length s + 0) (length s + 1)
                     (running k acc)
  = match f x with
    | Ok y => comprehension_loop fuel self (length s + 0) (length s + 1)
                (running (S k) (acc ++ [PyTuple x y]))
    | Raise e => Raises e (running (S k) acc)
    end.
Proof.
  intros Hk. cbn [comprehension_loop]. rewrite py_next_running, Hk.
  unfold running at 1.
  rewrite (read_extends s _ self _ (ex_intro _ _ eq_refl) Hself).
  destruct (f x) as [y|e]; [|reflexivity].
  fold (running (S k) acc). now rewrite list_append_running.
Qed.

Lemma comprehension_loop_running (rest : list _TNumber) :
  forall (done : list _TNumber) (acc : list point) (fuel : nat),
  samples ivl = done ++ rest -> length rest < fuel ->
  match traverse (fun x => y <- f x ;; Ok (PyTuple x y)) rest with
  | Ok vs =>
      comprehension_loop fuel self (length s + 0) (length s + 1)
                         (running (length done) acc)
      = Returns (length s + 1)
                (running (length (samples ivl)) (acc ++ vs))
  | Raise e =>
      exists k acc',
      comprehension_loop fuel self (length s + 0) (length s + 1)
                         (running (length done) acc)
      = Raises e (running k acc')
  end.
Proof.
  induction rest as [|x rest IH]; intros done acc fuel Hs Hfuel;
    (destruct fuel as [|fuel]; [cbn [length] in Hfuel; lia|]).
  - cbn [traverse]. rewrite loop_stop.
    + rewrite Hs, !app_nil_r. reflexivity.
    + rewrite Hs, app_nil_r. now apply nth_error_None.
  - assert (Hx : nth_error (samples ivl) (length done) = Some x).
    { rewrite Hs, nth_error_app2, Nat.sub_diag by lia. reflexivity. }
    rewrite (loop_yield _ acc fuel x Hx). cbn [traverse].
    destruct (f x) as [y|e]; cbn [bind].
    + specialize (IH (done ++ [x]) (acc ++ [PyTuple x y]) fuel).
      rewrite length_app in IH. cbn [length] in IH.
      replace (length done + 1) with (S (length done)) in IH by lia.
      assert (H1 : samples ivl = (done ++ [x]) ++ rest)
        by (now rewrite <- app_assoc).
      assert (H2 : length rest < fuel) by (cbn [length] in Hfuel; lia).
      specialize (IH H1 H2).
      destruct (traverse (fun x0 => y0 <- f x0 ;; Ok (PyTuple x0 y0)) rest)
        as [vs|e].
      * rewrite IH. now rewrite <- app_assoc.
      * exact IH.
    + now exists (S (length done)), acc.
Qed.

Lemma Function_points_run (fuel : nat) :
  length (samples ivl) < fuel ->
  match points (Function f) ivl with
  | Ok P =>
      exists s', Function_points fuel self i s = Returns (length s + 1) s'
                 /\ extends s s'
                 /\ read s' (length s + 1) = Some (ListObj P)
  | Raise e =>
      exists s', Function_points fuel self i s = Raises e s' /\ extends s s'
  end.
Proof.
  intros Hfuel.
  assert (Hstart : Function_points fuel self i s
                   = comprehension_loop fuel self (length s + 0)
                       (length s + 1) (running (length (@nil _TNumber)) [])).
  { unfold Function_points, py_iter, alloc. rewrite Hivl.
    rewrite length_app, <- app_assoc, Nat.add_0_r. reflexivity. }
  pose proof (comprehension_loop_running (samples ivl) [] [] fuel
                eq_refl Hfuel) as Hloop.
  rewrite points_Function.
  destruct (traverse (fun x => y <- f x ;; Ok (PyTuple x y)) (samples ivl))
    as [P|e].
  - eexists. split; [rewrite Hstart; exact Hloop|].
    split; [now eexists|].
    unfold running. now rewrite read_fresh.
  - destruct Hloop as [k [acc' Hloop]].
    eexists. split; [rewrite Hstart; exact Hloop|]. now eexists.
Qed.

End StoreFacts.

Lemma num_eqb_refl (a : _TNumber) : is_nan a = false -> num_eqb a a = true.
Proof.
  destruct a as [z|x]; cbn [num_eqb]; [intros _; apply Z.eqb_refl|].
  destruct x as [sx|sx| |sx m e]; intros H; try discriminate.
  - reflexivity.
  - now destruct sx.
  - apply (SFeqb_finite_refl (S754_finite sx m e)). reflexivity.
Qed.

Lemma points_eqb_refl (P : list point) :
  Forall (fun p => nan_free p = true) P -> points_eqb P P = true.
Proof.
  induction 1 as [|p P Hp _ IH]; cbn [points_eqb]; [reflexivity|].
  rewrite IH, andb_true_r. unfold nan_free in Hp.
  apply andb_true_iff in Hp as [H0 H1].
  apply negb_true_iff in H0, H1.
  destruct p as [x y|x y]; cbn [item0 item1] in *; cbn [point_eqb];
    now rewrite !num_eqb_refl.
Qed.



Lemma linear_map_is_list (M : Matrix) (p q : point) :
  linear_map M p = Ok q -> is_list q = true.
Proof.
  unfold linear_map.
  destruct (dot (item0 p) (item1 p) (m00 M) (m01 M)); cbn [bind];
    [|discriminate].
  destruct (dot (item0 p) (item1 p) (m10 M) (m11 M)); cbn [bind];
    [|discriminate].
  intros H. now injection H as <-.
Qed.

Lemma points_eqb_list_tuple (Q P : list point) :
  Forall (fun q => is_list q = true) Q ->
  Forall (fun p => is_tuple p = true) P ->
  Q <> [] -> points_eqb Q P = false.
Proof.
  intros HQ HP Hne. destruct HQ as [|q Q Hq _]; [congruence|].
  destruct HP as [|p P Hp _]; [reflexivity|].
  destruct q; [discriminate|]. destruct p; [|discriminate]. reflexivity.
Qed.

(** C10: [Function.points] emits tuples, [ParametricFunction.points] emits
    what its function returns (tuples, for a function of the declared type),
    and [TransformedCurve.points] emits lists; so even under the identity
    matrix the transformed output has equal coordinates but is not [==] to
    the tuple-based output of the wrapped curve. *)
Theorem output_representation :
  (forall (f : _TNumber -> result _TNumber) (I : Interval) P,
     points (Function f) I = Ok P ->
     Forall (fun p => is_tuple p = true) P) /\
  (forall (g : _TNumber -> result point) (I : Interval) P,
     (forall t p, g t = Ok p -> is_tuple p = true) ->
     points (ParametricFunction g) I = Ok P ->
     Forall (fun p => is_tuple p = true) P) /\
  (forall (M : Matrix) (C : Curve) (I : Interval) Q,
     points (TransformedCurve M C) I = Ok Q ->
     Forall (fun q => is_list q = true) Q) /\
  (forall (C : Curve) (I : Interval) P,
     points C I = Ok P -> P <> [] ->
     Forall (fun p => is_tuple p = true) P ->
     Forall (fun p => exact_point p = true) P ->
     exists Q, points (TransformedCurve identity_matrix C) I = Ok Q /\
               Forall2 (fun p q => same_coords q p = true) P Q /\
               points_eqb Q P = false).
Proof.
  assert (HT : forall (M : Matrix) (C : Curve) (I : Interval) Q,
             points (TransformedCurve M C) I = Ok Q ->
             Forall (fun q => is_list q = true) Q).
  { intros M C I Q HQ.
    apply points_TransformedCurve_Ok in HQ as [P [_ HQ]].
    apply traverse_Ok_iff in HQ.
    apply (Forall2_Forall_r _ _ _ _ HQ). apply linear_map_is_list. }
  split; [|split; [|split]].
  - intros f I P HP. apply points_sample_point in HP.
    apply (Forall2_Forall_r _ _ _ _ HP). intros x p. cbn [sample_point].
    destruct (f x); cbn [bind]; [|discriminate].
    intros H. now injection H as <-.
  - intros g I P Hg HP. apply points_sample_point in HP.
    apply (Forall2_Forall_r _ _ _ _ HP). exact Hg.
  - exact HT.
  - intros C I P HP Hne Htup Hdom.
    destruct (traverse_identity_same_coords P Hdom) as [Q [HQ HF]].
    assert (HQ' : points (TransformedCurve identity_matrix C) I = Ok Q)
      by (now rewrite points_TransformedCurve, HP).
    exists Q. split; [exact HQ'|]. split; [exact HF|].
    apply points_eqb_list_tuple; [now apply (HT _ _ _ _ HQ') | exact Htup |].
    intros ->. inversion HF. congruence.
Qed.

(** ** The theorems at concrete inputs *)

(** The scaling example: [((2,0),(0,2))] applied to [Function(lambda x: x)]
    over [{1, 2, 3}] gives the points [2,2], [4,4], [6,6]. *)
Lemma points_length_and_order_scaling :
  points (TransformedCurve doubling (Function identity_fn)) one_to_three
  = Ok [PyList (Int 2) (Int 2); PyList (Int 4) (Int 4); PyList (Int 6) (Int 6)]
  /\ length [PyList (Int 2) (Int 2); PyList (Int 4) (Int 4);
             PyList (Int 6) (Int 6)] = length (samples one_to_three)
  /\ exists p, nth_error [PyList (Int 2) (Int 2); PyList (Int 4) (Int 4);
                          PyList (Int 6) (Int 6)] 1 = Some p
               /\ sample_point (TransformedCurve doubling (Function identity_fn))
                               (Int 2) = Ok p.
Proof.
  split; [reflexivity|].
  destruct (proj1 (points_length_and_order
                     (TransformedCurve doubling (Function identity_fn))
                     one_to_three
                     [PyList (Int 2) (Int 2); PyList (Int 4) (Int 4);
                      PyList (Int 6) (Int 6)]) eq_refl) as [Hlen Hnth].
  split; [exact Hlen|]. exact (Hnth 1%nat (Int 2) eq_refl).
Defined.

Lemma Function_points_pairs_identity :
  points (Function identity_fn) one_to_three
  = Ok [PyTuple (Int 1) (Int 1); PyTuple (Int 2) (Int 2);
        PyTuple (Int 3) (Int 3)].
Proof.
  apply (proj2 (Function_points_pairs identity_fn one_to_three) (fun x => x)).
  reflexivity.
Defined.

Lemma ParametricFunction_points_exact_parabola :
  points (ParametricFunction parabola) one_to_three
  = traverse parabola [Int 1; Int 2; Int 3]
  /\ traverse parabola [Int 1; Int 2; Int 3]
     = Ok [PyTuple (Int 1) (Int 1); PyTuple (Int 2) (Int 4);
           PyTuple (Int 3) (Int 9)].
Proof.
  split; [|reflexivity].
  exact (proj1 (ParametricFunction_points_exact parabola one_to_three)).
Defined.

Lemma TransformedCurve_points_linear_map_quarter_turn :
  points (TransformedCurve quarter_turn (ParametricFunction parabola))
         one_to_three
  = (P <- points (ParametricFunction parabola) one_to_three ;;
     traverse (linear_map quarter_turn) P)
  /\ points (TransformedCurve quarter_turn (ParametricFunction parabola))
            one_to_three
     = Ok [PyList (Int (-1)) (Int 1); PyList (Int (-4)) (Int 2);
           PyList (Int (-9)) (Int 3)].
Proof.
  split; [|reflexivity].
  exact (proj1 (TransformedCurve_points_linear_map quarter_turn
                  (ParametricFunction parabola) one_to_three)).
Defined.

(** [Function(lambda x: 0.5)] at the float sample [1.0]: a point with two
    finite float coordinates. *)
Lemma identity_transform_same_coords_half :
  points (Function half) (interval_of [Float float_one])
  = Ok [PyTuple (Float float_one) (Float (float_lit 1 (-1)))] /\
  exists Q,
    points (TransformedCurve identity_matrix (Function half))
           (interval_of [Float float_one]) = Ok Q /\
    length Q = length [PyTuple (Float float_one) (Float (float_lit 1 (-1)))] /\
    Forall2 (fun p q => same_coords q p = true)
            [PyTuple (Float float_one) (Float (float_lit 1 (-1)))] Q.
Proof.
  split; [reflexivity|].
  apply (identity_transform_same_coords (Function half)
           (interval_of [Float float_one])
           [PyTuple (Float float_one) (Float (float_lit 1 (-1)))]).
  - reflexivity.
  - constructor; [reflexivity | constructor].
Defined.

Lemma composition_on_integers_quarter_turn :
  exists M,
    mat_mul quarter_turn doubling = Ok M /\
    points (TransformedCurve quarter_turn
              (TransformedCurve doubling (ParametricFunction parabola)))
           one_to_three
    = points (TransformedCurve M (ParametricFunction parabola)) one_to_three.
Proof.
  apply (composition_on_integers 2 0 0 2 0 (-1) 1 0
           (ParametricFunction parabola) one_to_three).
  intros P HP. injection HP as <-.
  repeat (constructor; [reflexivity|]). constructor.
Defined.

(** [Function(lambda x: 0.5)] over an integer and a float sample. *)
Lemma zero_transform_origin_half :
  exists Q,
    points (TransformedCurve zero_matrix (Function half))
           (interval_of [Int 1; Float float_one]) = Ok Q /\
    length Q = 2%nat /\
    Forall (fun q => is_origin q = true) Q.
Proof.
  apply (zero_transform_origin (Function half)
           (interval_of [Int 1; Float float_one])
           [PyTuple (Int 1) (Float (float_lit 1 (-1)));
            PyTuple (Float float_one) (Float (float_lit 1 (-1)))]).
  - reflexivity.
  - repeat (constructor; [reflexivity|]). constructor.
Defined.

(** The specification's example: [lambda x: 1.0 / x] over an interval that
    contains [0]. *)
Lemma failure_propagates_reciprocal :
  points (Function reciprocal) (interval_of [Int (-1); Int 0; Int 1])
  = Raise ZeroDivisionError /\
  points (TransformedCurve doubling (Function reciprocal))
         (interval_of [Int (-1); Int 0; Int 1])
  = Raise ZeroDivisionError.
Proof.
  assert (H : points (Function reciprocal)
                     (interval_of [Int (-1); Int 0; Int 1])
              = Raise ZeroDivisionError).
  { apply (proj1 failure_propagates reciprocal
             (interval_of [Int (-1); Int 0; Int 1])
             [Int (-1)] (Int 0) [Int 1] ZeroDivisionError).
    - reflexivity.
    - constructor; [|constructor]. eexists. reflexivity.
    - reflexivity. }
  split; [exact H|].
  apply (proj2 (proj2 failure_propagates)). exact H.
Defined.


(** [[[1, 1]] == [(1, 1)]] is false although the coordinates agree. *)
Lemma output_representation_identity :
  exists Q,
    points (TransformedCurve identity_matrix (Function identity_fn))
           (interval_of [Int 1]) = Ok Q /\
    Forall2 (fun p q => same_coords q p = true) [PyTuple (Int 1) (Int 1)] Q /\
    points_eqb Q [PyTuple (Int 1) (Int 1)] = false.
Proof.
  apply (proj2 (proj2 (proj2 output_representation))
           (Function identity_fn) (interval_of [Int 1])
           [PyTuple (Int 1) (Int 1)]).
  - reflexivity.
  - discriminate.
  - constructor; [reflexivity | constructor].
  - constructor; [reflexivity | constructor].
Defined.

(** * Further properties of [points] *)

(** ** Empty and concatenated sample sequences *)

(** X1: an interval without samples gives the empty list for every curve: the
    supplied function is not called, so nothing can fail. *)
Theorem points_empty_interval (C : Curve) (I : Interval) :
  samples I = [] -> points C I = Ok [].
Proof.
  intros HI. induction C as [f|g|M C IH].
  - now rewrite points_Function, HI.
  - now rewrite points_ParametricFunction, HI.
  - now rewrite points_TransformedCurve, IH.
Qed.

Lemma points_empty_interval_always_fails :
  samples (interval_of []) = [] /\
  points (TransformedCurve doubling (Function always_fails)) (interval_of [])
  = Ok [].
Proof.
  split; [reflexivity|].
  apply (points_empty_interval
           (TransformedCurve doubling (Function always_fails))
           (interval_of [])).
  reflexivity.
Defined.

(** X2: sampling is pointwise: when the samples of [I] are those of [I1]
    followed by those of [I2], [points] returns on [I] exactly when it
    returns on [I1] and on [I2], and the result is the concatenation. *)
Theorem points_concat (C : Curve) (I I1 I2 : Interval) (P : list point) :
  samples I = samples I1 ++ samples I2 ->
  (points C I = Ok P <->
   exists P1 P2, P = P1 ++ P2 /\ points C I1 = Ok P1 /\ points C I2 = Ok P2).
Proof.
  intros HI. rewrite points_sample_point, HI. split.
  - intros H. apply Forall2_app_inv_l in H as [P1 [P2 [H1 [H2 ->]]]].
    exists P1, P2. split; [reflexivity|].
    split; now apply points_sample_point.
  - intros [P1 [P2 [-> [H1 H2]]]].
    apply Forall2_app; now apply points_sample_point.
Qed.

Lemma points_concat_one_to_three :
  exists P1 P2,
    [PyList (Int 2) (Int 2); PyList (Int 4) (Int 4); PyList (Int 6) (Int 6)]
    = P1 ++ P2 /\
    points (TransformedCurve doubling (Function identity_fn))
           (interval_of [Int 1]) = Ok P1 /\
    points (TransformedCurve doubling (Function identity_fn))
           (interval_of [Int 2; Int 3]) = Ok P2.
Proof.
  apply (proj1 (points_concat
                  (TransformedCurve doubling (Function identity_fn))
                  one_to_three (interval_of [Int 1])
                  (interval_of [Int 2; Int 3])
                  [PyList (Int 2) (Int 2); PyList (Int 4) (Int 4);
                   PyList (Int 6) (Int 6)] eq_refl)).
  reflexivity.
Defined.

(** ** What the transformation step can raise *)

Section TransformFailures.

Lemma float_of_int_raises (z : Z) (e : exn) :
  float_of_int z = Raise e -> e = OverflowError.
Proof.
  unfold float_of_int. destruct (float_lit z 0); intros H;
    try discriminate. now injection H.
Qed.

Lemma as_float_raises (a : _TNumber) (e : exn) :
  as_float a = Raise e -> e = OverflowError.
Proof.
  destruct a as [z|f]; cbn [as_float]; [apply float_of_int_raises|].
  discriminate.
Qed.

Lemma float_op_raises (op : spec_float -> spec_float -> spec_float)
      (a b : _TNumber) (e : exn) :
  (x <- as_float a ;; y <- as_float b ;; Ok (Float (op x y))) = Raise e ->
  e = OverflowError.
Proof.
  destruct (as_float a) as [x|e1] eqn:Ea; cbn [bind].
  - destruct (as_float b) as [y|e2] eqn:Eb; cbn [bind]; [discriminate|].
    intros H. injection H as <-. exact (as_float_raises b e2 Eb).
  - intros H. injection H as <-. exact (as_float_raises a e1 Ea).
Qed.

Lemma py_mul_raises (a b : _TNumber) (e : exn) :
  py_mul a b = Raise e -> e = OverflowError.
Proof.
  destruct a, b; try discriminate; apply (float_op_raises fmul).
Qed.

Lemma py_add_raises (a b : _TNumber) (e : exn) :
  py_add a b = Raise e -> e = OverflowError.
Proof.
  destruct a, b; try discriminate; apply (float_op_raises fadd).
Qed.

Lemma dot_raises (px py a b : _TNumber) (e : exn) :
  dot px py a b = Raise e -> e = OverflowError.
Proof.
  unfold dot.
  destruct (py_mul px a) as [u|e1] eqn:Eu; cbn [bind].
  - destruct (py_mul py b) as [v|e2] eqn:Ev; cbn [bind].
    + apply py_add_raises.
    + intros H. injection H as <-. exact (py_mul_raises _ _ _ Ev).
  - intros H. injection H as <-. exact (py_mul_raises _ _ _ Eu).
Qed.

Lemma linear_map_raises (M : Matrix) (p : point) (e : exn) :
  linear_map M p = Raise e -> e = OverflowError.
Proof.
  unfold linear_map.
  destruct (dot (item0 p) (item1 p) (m00 M) (m01 M)) as [x'|e1] eqn:Ex;
    cbn [bind].
  - destruct (dot (item0 p) (item1 p) (m10 M) (m11 M)) as [y'|e2] eqn:Ey;
      cbn [bind]; [discriminate|].
    intros H. injection H as <-. exact (dot_raises _ _ _ _ _ Ey).
  - intros H. injection H as <-. exact (dot_raises _ _ _ _ _ Ex).
Qed.

Lemma traverse_raises {A B : Type} (f : A -> result B) (e0 : exn)
      (xs : list A) (e : exn) :
  (forall x e', f x = Raise e' -> e' = e0) ->
  traverse f xs = Raise e -> e = e0.
Proof.
  intros Hf. induction xs as [|x xs IH]; cbn [traverse]; [discriminate|].
  destruct (f x) as [v|e1] eqn:Ex.
  - destruct (traverse f xs) as [vs|e2]; [discriminate|].
    intros H. injection H as <-. now apply IH.
  - intros H. injection H as <-. exact (Hf x e1 Ex).
Qed.

Lemma traverse_raises_at {A B : Type} (f : A -> result B) (e0 : exn)
      (xs : list A) (x : A) :
  (forall y e', f y = Raise e' -> e' = e0) ->
  In x xs -> f x = Raise e0 -> traverse f xs = Raise e0.
Proof.
  intros Hf Hin Hx.
  destruct (traverse f xs) as [vs|e] eqn:E.
  - apply traverse_Ok_iff in E.
    apply In_nth_error in Hin as [i Hi].
    destruct (Forall2_nth_error_l _ _ _ E i x Hi) as [y [_ Hy]].
    congruence.
  - f_equal. exact (traverse_raises f e0 xs e Hf E).
Qed.

End TransformFailures.

(** X3: whatever [TransformedCurve.points] raises was raised by the wrapped
    curve's [points], or is the [OverflowError] of an integer too large to
    be converted to a float: its arithmetic raises nothing else. *)
Theorem TransformedCurve_raises (M : Matrix) (C : Curve) (I : Interval)
        (e : exn) :
  points (TransformedCurve M C) I = Raise e ->
  points C I = Raise e \/ e = OverflowError.
Proof.
  rewrite points_TransformedCurve.
  destruct (points C I) as [P|e1]; cbn [bind].
  - intros H. right.
    exact (traverse_raises (linear_map M) OverflowError P e
             (linear_map_raises M) H).
  - intros H. now left.
Qed.

Lemma TransformedCurve_raises_reciprocal :
  points (Function reciprocal) (interval_of [Int 1; Int 0])
  = Raise ZeroDivisionError \/ ZeroDivisionError = OverflowError.
Proof.
  apply (TransformedCurve_raises halving (Function reciprocal)
           (interval_of [Int 1; Int 0]) ZeroDivisionError).
  reflexivity.
Defined.

(** X4: an integer coordinate beyond the range of floats, multiplied by a float
    entry [M[0][0]], makes [TransformedCurve.points] raise [OverflowError],
    wherever the point stands in the wrapped curve's output. *)
Theorem TransformedCurve_overflow (M : Matrix) (C : Curve) (I : Interval)
        (P : list point) (p : point) (z : Z) :
  points C I = Ok P -> In p P ->
  item0 p = Int z -> float_of_int z = Raise OverflowError ->
  is_float (m00 M) = true ->
  points (TransformedCurve M C) I = Raise OverflowError.
Proof.
  intros HP Hin Hz Hover Hm.
  rewrite points_TransformedCurve, HP. cbn [bind].
  apply (traverse_raises_at _ _ P p (linear_map_raises M) Hin).
  unfold linear_map, dot. rewrite Hz.
  destruct (m00 M) as [k|a]; [discriminate|].
  unfold py_mul. cbn [as_float]. now rewrite Hover.
Qed.

Lemma TransformedCurve_overflow_halving :
  points (Function identity_fn) (interval_of [Int 1; Int (2 ^ 1024)])
  = Ok [PyTuple (Int 1) (Int 1); PyTuple (Int (2 ^ 1024)) (Int (2 ^ 1024))] /\
  points (TransformedCurve halving (Function identity_fn))
         (interval_of [Int 1; Int (2 ^ 1024)])
  = Raise OverflowError.
Proof.
  split; [reflexivity|].
  apply (TransformedCurve_overflow halving (Function identity_fn)
           (interval_of [Int 1; Int (2 ^ 1024)])
           [PyTuple (Int 1) (Int 1); PyTuple (Int (2 ^ 1024)) (Int (2 ^ 1024))]
           (PyTuple (Int (2 ^ 1024)) (Int (2 ^ 1024))) (2 ^ 1024)).
  - reflexivity.
  - right. left. reflexivity.
  - reflexivity.
  - vm_compute. reflexivity.
  - reflexivity.
Defined.

(** ** Float coordinates never make the transformation fail *)

Lemma dot_float (px py a b : _TNumber) :
  is_float px = true -> is_float py = true ->
  convertible a = true -> convertible b = true ->
  exists f, dot px py a b = Ok (Float f).
Proof.
  destruct px as [|x]; [discriminate|]. destruct py as [|y]; [discriminate|].
  unfold convertible. intros _ _ Ha Hb.
  destruct (as_float a) as [fa|] eqn:Ea; [|discriminate].
  destruct (as_float b) as [fb|] eqn:Eb; [|discriminate].
  exists (fadd (fmul x fa) (fmul y fb)).
  unfold dot.
  assert (Hmul : forall u c fc, as_float c = Ok fc ->
                   py_mul (Float u) c = Ok (Float (fmul u fc))).
  { intros u c fc Ec. unfold py_mul. destruct c; cbn [as_float bind] in *.
    - now rewrite Ec.
    - now injection Ec as ->. }
  now rewrite (Hmul x a fa Ea), (Hmul y b fb Eb).
Qed.

(** X5: when the wrapped curve's points have float coordinates (infinities and
    NaN included) and the matrix entries are floats or integers within the
    range of floats, [TransformedCurve.points] does not raise: it returns as
    many points, again with float coordinates. *)
Theorem TransformedCurve_total_on_floats (M : Matrix) (C : Curve)
        (I : Interval) (P : list point) :
  points C I = Ok P ->
  convertible_matrix M = true ->
  Forall (fun p => float_coords p = true) P ->
  exists Q, points (TransformedCurve M C) I = Ok Q /\
            length Q = length P /\
            Forall (fun q => float_coords q = true) Q.
Proof.
  intros HP HM HF. rewrite points_TransformedCurve, HP. cbn [bind].
  unfold convertible_matrix in HM.
  apply andb_true_iff in HM as [HM H11]. apply andb_true_iff in HM as [HM H10].
  apply andb_true_iff in HM as [H00 H01].
  destruct (traverse_pointwise (linear_map M)
              (fun _ q => float_coords q = true) P) as [Q [HQ HQF]].
  - eapply Forall_impl; [|exact HF]. intros p Hp.
    unfold float_coords in Hp. apply andb_true_iff in Hp as [Hx Hy].
    destruct (dot_float _ _ _ _ Hx Hy H00 H01) as [x' Ex].
    destruct (dot_float _ _ _ _ Hx Hy H10 H11) as [y' Ey].
    exists (PyList (Float x') (Float y')). unfold linear_map.
    rewrite Ex, Ey. split; reflexivity.
  - exists Q. split; [exact HQ|]. split.
    + symmetry. exact (Forall2_length HQF).
    + apply (Forall2_Forall_r _ _ _ _ HQF). auto.
Qed.

(** [lambda x: x * x] at [2.0**600] gives an infinite coordinate; doubling
    it still returns a point. *)
Lemma TransformedCurve_total_on_floats_square :
  exists Q,
    points (TransformedCurve doubling (Function square))
           (interval_of [Float (float_lit 1 600)]) = Ok Q /\
    length Q = 1%nat /\
    Forall (fun q => float_coords q = true) Q.
Proof.
  apply (TransformedCurve_total_on_floats doubling (Function square)
           (interval_of [Float (float_lit 1 600)])
           [PyTuple (Float (float_lit 1 600)) (Float (S754_infinity false))]).
  - reflexivity.
  - reflexivity.
  - constructor; [reflexivity | constructor].
Defined.

(** ** The transformation reads coordinates only *)

Lemma linear_map_coords (M : Matrix) (p p' : point) :
  coords p = coords p' -> linear_map M p = linear_map M p'.
Proof.
  unfold coords, linear_map. intros H. injection H as -> ->. reflexivity.
Qed.

Lemma traverse_Forall2_ext {A B : Type} (f : A -> result B)
      (xs ys : list A) :
  Forall2 (fun x y => f x = f y) xs ys -> traverse f xs = traverse f ys.
Proof.
  induction 1 as [|x y xs ys Hxy _ IH]; cbn [traverse]; [reflexivity|].
  now rewrite Hxy, IH.
Qed.

(** X6: [TransformedCurve.points] only indexes the wrapped curve's points: two
    curves whose outputs agree coordinate by coordinate, whether they emit
    tuples or lists, have the same transformed output. *)
Theorem TransformedCurve_ignores_container (M : Matrix) (C C' : Curve)
        (I I' : Interval) (P P' : list point) :
  points C I = Ok P -> points C' I' = Ok P' ->
  map coords P = map coords P' ->
  points (TransformedCurve M C) I = points (TransformedCurve M C') I'.
Proof.
  intros HP HP' Hc. rewrite !points_TransformedCurve, HP, HP'. cbn [bind].
  apply traverse_Forall2_ext.
  clear HP HP'. revert P' Hc. induction P as [|p P IH]; intros [|p' P'] Hc;
    try discriminate; [constructor|].
  cbn [map] in Hc. injection Hc as Hx Hy HP. constructor.
  - apply linear_map_coords. unfold coords. congruence.
  - now apply IH.
Qed.

Lemma TransformedCurve_ignores_container_parabola :
  points (TransformedCurve quarter_turn (ParametricFunction parabola))
         one_to_three
  = points (TransformedCurve quarter_turn (ParametricFunction parabola_list))
           one_to_three'.
Proof.
  apply (TransformedCurve_ignores_container quarter_turn
           (ParametricFunction parabola) (ParametricFunction parabola_list)
           one_to_three one_to_three'
           [PyTuple (Int 1) (Int 1); PyTuple (Int 2) (Int 4);
            PyTuple (Int 3) (Int 9)]
           [PyList (Int 1) (Int 1); PyList (Int 2) (Int 4);
            PyList (Int 3) (Int 9)]); reflexivity.
Defined.

(** ** Exact behaviour on integer points *)

Lemma linear_map_identity_exact (p : point) :
  int_point p = true -> is_list p = true ->
  linear_map identity_matrix p = Ok p.
Proof.
  destruct p as [x y|x y]; [discriminate|]. unfold int_point. cbn [item0 item1].
  destruct x as [a|], y as [b|]; try discriminate. intros _ _.
  unfold linear_map, dot. cbn.
  f_equal. f_equal; f_equal; lia.
Qed.

Lemma traverse_fixed {A : Type} (f : A -> result A) (xs : list A) :
  Forall (fun x => f x = Ok x) xs -> traverse f xs = Ok xs.
Proof.
  induction 1 as [|x xs Hx _ IH]; cbn [traverse]; [reflexivity|].
  now rewrite Hx, IH.
Qed.

(** X7: on a curve that already emits lists of integers (any transformed
    integer curve does), the identity matrix changes nothing at all: the
    transformed output is the very same list of points. *)
Theorem identity_exact_on_int_lists (C : Curve) (I : Interval)
        (P : list point) :
  points C I = Ok P ->
  Forall (fun p => int_point p = true) P ->
  Forall (fun p => is_list p = true) P ->
  points (TransformedCurve identity_matrix C) I = Ok P.
Proof.
  intros HP Hint Hlist. rewrite points_TransformedCurve, HP. cbn [bind].
  apply traverse_fixed.
  rewrite Forall_forall in *. intros p Hp.
  apply linear_map_identity_exact; auto.
Qed.

Lemma identity_exact_on_int_lists_doubling :
  points (TransformedCurve identity_matrix
            (TransformedCurve doubling (Function identity_fn))) one_to_three
  = Ok [PyList (Int 2) (Int 2); PyList (Int 4) (Int 4); PyList (Int 6) (Int 6)].
Proof.
  apply (identity_exact_on_int_lists
           (TransformedCurve doubling (Function identity_fn)) one_to_three).
  - reflexivity.
  - repeat (constructor; [reflexivity|]). constructor.
  - repeat (constructor; [reflexivity|]). constructor.
Defined.

Lemma of_int_pow_1 (m : IntMatrix) : of_int (int_pow m 1) = of_int m.
Proof.
  destruct m as [[a b] [c d]]. cbn [int_pow int_mul of_int fst snd].
  unfold int_matrix. repeat f_equal; lia.
Qed.

(** X8: wrapping an integer curve [n + 1] times in the same integer matrix [m]
    gives exactly the points of one transformation by the matrix power
    [m^(n+1)]. *)
Theorem wrap_is_matrix_power (m : IntMatrix) (C : Curve) (I : Interval)
        (n : nat) :
  (forall P, points C I = Ok P -> Forall (fun p => int_point p = true) P) ->
  points (wrap (S n) (of_int m) C) I
  = points (TransformedCurve (of_int (int_pow m (S n))) C) I.
Proof.
  intros Hint. induction n as [|n IH].
  - cbn [wrap]. now rewrite of_int_pow_1.
  - change (wrap (S (S n)) (of_int m) C)
      with (TransformedCurve (of_int m) (wrap (S n) (of_int m) C)).
    rewrite points_TransformedCurve, IH, !points_TransformedCurve.
    destruct (points C I) as [P|e] eqn:HP; cbn [bind]; [|reflexivity].
    change (int_pow m (S (S n))) with (int_mul m (int_pow m (S n))).
    destruct m as [[a' b'] [c' d']].
    destruct (int_pow (a', b', (c', d')) (S n)) as [[a b] [c d]].
    apply (compose_linear_map_int a b c d a' b' c' d' P). now apply Hint.
Qed.

(** Three shears [((1, 1), (0, 1))] of the parabola are one transformation
    by [((1, 3), (0, 1))]. *)
Lemma wrap_is_matrix_power_shear :
  points (wrap 3 (of_int shear) (ParametricFunction parabola)) one_to_three
  = points (TransformedCurve (int_matrix 1 3 0 1)
              (ParametricFunction parabola)) one_to_three.
Proof.
  apply (wrap_is_matrix_power shear (ParametricFunction parabola)
           one_to_three 2).
  intros P HP. injection HP as <-.
  repeat (constructor; [reflexivity|]). constructor.
Defined.
